(** * life_expectancy/cleaning.py: the [clean_data] routine

    A shallow embedding of [clean_data] and of the pandas calls it makes,
    followed by the properties of the routine.

    Scope of the model.
    - pandas is the one of version 2, with [object] columns for text.
    - The input table is the frame [pd.read_csv] returns: a list of column
      labels and a list of rows.  Every cell is text (the [object] dtype of
      the Eurostat file, whose cells are [81.2 ], [81.2 e], [: ], ...);
      numeric columns and missing cells are outside the model.  Labels are
      distinct, also once line 28 has removed their spaces.
    - A cleaned value is the exact decimal number its literal denotes
      ([Decimal]); the rounding of that number to binary64 is not modelled.
      An absent value ([NaN]) is [None].
    - The file system is a finite map from paths to written tables; the data
      directory is taken to be writable.
    - Strings are byte strings; characters outside ASCII are neither digits
      nor white space. *)

From Stdlib Require Import String Ascii List NArith ZArith Lia Bool.
From stdpp Require Import base gmap strings list.
Import ListNotations.

Local Open Scope string_scope.
Local Open Scope list_scope.

(** ** Exceptions and results *)

Inductive exn : Type :=
| KeyError
| ValueError
| AttributeError
| OverflowError.

Inductive result (A : Type) : Type :=
| Ok (a : A)
| Raise (e : exn).

Arguments Ok {A} a.
Arguments Raise {A} e.

Definition bind {A B : Type} (m : result A) (k : A -> result B) : result B :=
  match m with
  | Ok a => k a
  | Raise e => Raise e
  end.

Declare Scope result_scope.
Delimit Scope result_scope with result.
Notation "'let*' x ':=' m 'in' k" := (bind m (fun x => k))
  (at level 10, x name, m at level 100, k at level 200) : result_scope.
Local Open Scope result_scope.

Fixpoint mapM {A B : Type} (f : A -> result B) (l : list A) : result (list B) :=
  match l with
  | [] => Ok []
  | x :: l' =>
      let* y := f x in
      let* ys := mapM f l' in
      Ok (y :: ys)
  end.

(** ** Characters and Python string methods *)

Definition is_digit (c : ascii) : bool :=
  ((48 <=? N_of_ascii c) && (N_of_ascii c <=? 57))%N.

Definition digit_value (c : ascii) : N := (N_of_ascii c - 48)%N.

(** [s.replace(' ', '')] *)
Fixpoint remove_spaces (s : string) : string :=
  match s with
  | EmptyString => EmptyString
  | String c s' =>
      if Ascii.eqb c " " then remove_spaces s'
      else String c (remove_spaces s')
  end.

(** [s.split(sep)] for a one-character separator: never empty, the empty
    string gives one empty part. *)
Fixpoint split (sep : ascii) (s : string) : list string :=
  match s with
  | EmptyString => [EmptyString]
  | String c s' =>
      if Ascii.eqb c sep then EmptyString :: split sep s'
      else match split sep s' with
           | p :: ps => String c p :: ps
           | [] => [String c EmptyString]
           end
  end.

(** White space as [str.isspace] sees it on ASCII. *)
Definition is_space (c : ascii) : bool :=
  let n := N_of_ascii c in
  (((9 <=? n) && (n <=? 13)) || ((28 <=? n) && (n <=? 32)))%N.

Fixpoint lstrip (cs : list ascii) : list ascii :=
  match cs with
  | c :: cs' => if is_space c then lstrip cs' else cs
  | [] => []
  end.

Definition strip (cs : list ascii) : list ascii :=
  rev (lstrip (rev (lstrip cs))).

(** The digits of a Python integer literal given to [int]: decimal digits,
    single underscores allowed between two digits. *)
Fixpoint int_digits (cs : list ascii) (acc : N) (after_digit : bool) : option N :=
  match cs with
  | [] => if after_digit then Some acc else None
  | c :: cs' =>
      if is_digit c then int_digits cs' (acc * 10 + digit_value c)%N true
      else if Ascii.eqb c "_" then
             (if after_digit then int_digits cs' acc false else None)
      else None
  end.

(** [int(s)]: white space around, an optional sign, then the digits. *)
Definition int_of_str (s : string) : option Z :=
  match strip (list_ascii_of_string s) with
  | "-"%char :: cs => option_map (fun n => (- Z.of_N n)%Z) (int_digits cs 0%N false)
  | "+"%char :: cs => option_map Z.of_N (int_digits cs 0%N false)
  | cs => option_map Z.of_N (int_digits cs 0%N false)
  end.

(** ** Regular expression of the value column

    [r'[^0-9.^0-9]'] is one negated character class.  Inside a class a
    caret that is not the first character, and a dot, stand for
    themselves; so the class lists the range 0-9, the dot, the caret and
    the range 0-9 again. *)

Inductive class_item : Type :=
| Range (lo hi : ascii)
| Lit (c : ascii).

Definition in_item (c : ascii) (i : class_item) : bool :=
  match i with
  | Range lo hi => ((N_of_ascii lo <=? N_of_ascii c) && (N_of_ascii c <=? N_of_ascii hi))%N
  | Lit d => Ascii.eqb c d
  end.

(** A negated class matches the characters none of its items holds. *)
Definition matches_negated (items : list class_item) (c : ascii) : bool :=
  negb (existsb (in_item c) items).

Definition value_pattern : list class_item :=
  [Range "0" "9"; Lit "."; Lit "^"; Range "0" "9"].

(** [re.sub(pattern, '', s)] for a pattern that is one negated class:
    every matching character is deleted. *)
Fixpoint re_sub_negated (items : list class_item) (s : string) : string :=
  match s with
  | EmptyString => EmptyString
  | String c s' =>
      if matches_negated items c then re_sub_negated items s'
      else String c (re_sub_negated items s')
  end.

(** ** Numbers *)

(** [digits / 10 ^ places]: the number a decimal literal denotes. *)
Record Decimal : Type := mkDecimal { digits : N; places : nat }.

Fixpoint digits_value (cs : list ascii) (acc : N) : N :=
  match cs with
  | [] => acc
  | c :: cs' => digits_value cs' (acc * 10 + digit_value c)%N
  end.

Fixpoint span_digits (cs : list ascii) : list ascii * list ascii :=
  match cs with
  | c :: cs' =>
      if is_digit c then let (ds, rest) := span_digits cs' in (c :: ds, rest)
      else ([], cs)
  | [] => ([], [])
  end.

(** [pd.to_numeric(s, errors='coerce')] on one string left by the
    replacement above, that is a string over digits, dots and carets:
    digits, then optionally a dot and digits, with a digit somewhere;
    anything else, the empty string included, is [NaN]. *)
Definition to_numeric (s : string) : option Decimal :=
  let (ip, rest) := span_digits (list_ascii_of_string s) in
  match rest with
  | [] =>
      match ip with
      | [] => None
      | _ => Some (mkDecimal (digits_value ip 0%N) 0)
      end
  | "."%char :: fp =>
      if forallb is_digit fp && negb (Nat.eqb (length ip + length fp) 0)
      then Some (mkDecimal (digits_value (ip ++ fp) 0%N) (length fp))
      else None
  | _ => None
  end.

(** Lines 49-52, on one cell. *)
Definition clean_value (s : string) : option Decimal :=
  to_numeric (re_sub_negated value_pattern s).

(** ** Frames *)

(** The frame as read from the file: labels and rows of text cells. *)
Record DataFrame : Type := mkDataFrame {
  columns : list string;
  rows : list (list string)
}.

(** Every row has one cell per column. *)
Definition rectangular (df : DataFrame) : Prop :=
  Forall (fun row => length row = length (columns df)) (rows df).

Definition key_label : string := "unit,sex,age,geo\time".
Definition id_vars : list string := ["unit"; "sex"; "age"; "region"].
Definition missing_sentinel : string := ": ".

Definition mem (s : string) (l : list string) : bool :=
  existsb (String.eqb s) l.

(** Line 28: [df.columns.str.replace(' ', '')]. *)
Definition strip_columns (df : DataFrame) : DataFrame :=
  mkDataFrame (map remove_spaces (columns df)) (rows df).

(** Position of a label among the columns. *)
Fixpoint get_loc (label : string) (cols : list string) : option nat :=
  match cols with
  | [] => None
  | c :: cols' =>
      if String.eqb c label then Some 0
      else option_map S (get_loc label cols')
  end.

(** A column that is neither the composite key (dropped on line 35) nor one
    of the four columns assigned on line 31 (an old column of that label is
    overwritten by the assignment): what [melt] takes as value columns. *)
Definition is_value_label (l : string) : bool :=
  negb (String.eqb l key_label) && negb (mem l id_vars).

Definition value_labels (cols : list string) : list string :=
  List.filter is_value_label cols.

Fixpoint value_cells (cols : list string) (row : list string) : list string :=
  match cols, row with
  | c :: cols', x :: row' =>
      if is_value_label c then x :: value_cells cols' row'
      else value_cells cols' row'
  | _, _ => []
  end.

(** A row after lines 31-35: the four parts of its key ([None] where
    [expand=True] padded a short key) and its cells in the value columns. *)
Record KeyedRow : Type := mkKeyedRow {
  k_unit : option string;
  k_sex : option string;
  k_age : option string;
  k_region : option string;
  k_cells : list string
}.

(** Number of columns of [Series.str.split(',', expand=True)]: the longest
    split, and none at all for a series without rows. *)
Definition expand_width (parts : list (list string)) : nat :=
  fold_right Nat.max 0 (map (@length string) parts).

(** One row after the assignment and the drop; [k] is the position of the
    composite key. *)
Definition keyed_row (k : nat) (cols : list string) (row : list string) : KeyedRow :=
  let ps := split "," (nth k row EmptyString) in
  mkKeyedRow (nth_error ps 0) (nth_error ps 1) (nth_error ps 2) (nth_error ps 3)
             (value_cells cols row).

(** Lines 31-35.  The assignment of the expanded split to four labels
    raises [ValueError] (Columns must be same length as key) unless the
    split has exactly four columns. *)
Definition split_key (df : DataFrame) : result (list KeyedRow) :=
  match get_loc key_label (columns df) with
  | None => Raise KeyError
  | Some k =>
      let parts := map (fun row => split "," (nth k row EmptyString)) (rows df) in
      if Nat.eqb (expand_width parts) 4
      then Ok (map (keyed_row k (columns df)) (rows df))
      else Raise ValueError
  end.

Definition region_is (country_code : string) (r : KeyedRow) : bool :=
  match k_region r with
  | Some g => String.eqb g country_code
  | None => false
  end.

(** Line 38. *)
Definition filter_region (country_code : string) (l : list KeyedRow) : list KeyedRow :=
  List.filter (region_is country_code) l.

(** A row of the melted frame. *)
Record MeltedRow : Type := mkMeltedRow {
  m_unit : option string;
  m_sex : option string;
  m_age : option string;
  m_region : option string;
  m_year : string;
  m_value : string
}.

Definition drop_cell (r : KeyedRow) : KeyedRow :=
  mkKeyedRow (k_unit r) (k_sex r) (k_age r) (k_region r) (tl (k_cells r)).

Definition melt_cell (label : string) (r : KeyedRow) : MeltedRow :=
  mkMeltedRow (k_unit r) (k_sex r) (k_age r) (k_region r) label
              (hd EmptyString (k_cells r)).

(** [pd.melt]: the value columns are laid end to end, the first column
    for all the rows, then the second column for all the rows, and so on;
    the identifier columns are repeated alongside. *)
Fixpoint melt_columns (labels : list string) (l : list KeyedRow) : list MeltedRow :=
  match labels with
  | [] => []
  | label :: labels' =>
      map (melt_cell label) l ++ melt_columns labels' (map drop_cell l)
  end.

(** Lines 41-45; pandas 2 refuses a frame that already has a column of the
    name given as [value_name]. *)
Definition melt (labels : list string) (l : list KeyedRow) : result (list MeltedRow) :=
  if mem "value" labels then Raise ValueError
  else Ok (melt_columns labels l).

(** Line 46: [.query('value != ": "')]. *)
Definition query (l : list MeltedRow) : list MeltedRow :=
  List.filter (fun m => negb (String.eqb (m_value m) missing_sentinel)) l.

(** A row of the result. *)
Record CleanedRecord : Type := mkCleanedRecord {
  unit : option string;
  sex : option string;
  age : option string;
  region : option string;
  year : Z;
  value : option Decimal
}.

(** Line 54, on one label: [int(label)], then the cast to int64. *)
Definition astype_int (s : string) : result Z :=
  match int_of_str s with
  | None => Raise ValueError
  | Some z =>
      if ((- 2 ^ 63 <=? z) && (z <? 2 ^ 63))%Z then Ok z
      else Raise OverflowError
  end.

(** Lines 49-54 on one melted row. *)
Definition convert (m : MeltedRow) : result CleanedRecord :=
  let v := clean_value (m_value m) in
  let* y := astype_int (m_year m) in
  Ok (mkCleanedRecord (m_unit m) (m_sex m) (m_age m) (m_region m) y v).

(** Lines 28-54: the frame that line 63 writes and line 65 returns.  With
    no value column at all the melted [value] column is an empty float
    column, and [.str] on line 50 raises [AttributeError]. *)
Definition transform (raw : DataFrame) (country_code : string)
  : result (list CleanedRecord) :=
  let life_expectancy_df := strip_columns raw in
  let* keyed := split_key life_expectancy_df in
  let labels := value_labels (columns life_expectancy_df) in
  let* melted := melt labels (filter_region country_code keyed) in
  let life_expectancy_df_melted := query melted in
  match labels with
  | [] => Raise AttributeError
  | _ => mapM convert life_expectancy_df_melted
  end.

(** ** The output file *)

Record CsvFile : Type := mkCsvFile {
  csv_header : list string;
  csv_records : list CleanedRecord
}.

(** Lines 57-62, relative to the project directory. *)
Definition output_file_path (country_code : string) : string :=
  "life_expectancy/data/" ++ country_code ++ "_life_expectancy.csv".

(** [DataFrame.to_csv(path, index=False)]: the labels of the melted frame,
    [id_vars] then [var_name] then [value_name], and its rows. *)
Definition to_csv (l : list CleanedRecord) : CsvFile :=
  mkCsvFile (id_vars ++ ["year"; "value"]) l.

(** [clean_data(country_code)] on the frame read on line 25, in a file
    system [fs]: the returned frame or the exception, and the file system
    afterwards.  Nothing is written unless line 63 is reached. *)
Definition clean_data (raw : DataFrame) (country_code : string)
    (fs : gmap string CsvFile) : result (list CleanedRecord) * gmap string CsvFile :=
  match transform raw country_code with
  | Ok life_expectancy_df_melted =>
      (Ok life_expectancy_df_melted,
       <[output_file_path country_code := to_csv life_expectancy_df_melted]> fs)
  | Raise e => (Raise e, fs)
  end.

(** ** The input table, cell by cell

    What the properties below say about a run is said in terms of the raw
    table: the key of a row, the region it carries, its cells in the year
    columns. *)

Definition key_of (raw : DataFrame) (row : list string) : string :=
  match get_loc key_label (columns (strip_columns raw)) with
  | Some k => nth k row EmptyString
  | None => EmptyString
  end.

Definition key_parts (raw : DataFrame) (row : list string) : list string :=
  split "," (key_of raw row).

(** The fourth part of the key, when there is one. *)
Definition derived_region (raw : DataFrame) (row : list string) : option string :=
  nth_error (key_parts raw row) 3.

Definition matches (raw : DataFrame) (country_code : string) (row : list string) : bool :=
  match derived_region raw row with
  | Some g => String.eqb g country_code
  | None => false
  end.

Definition matching_rows (raw : DataFrame) (country_code : string) : list (list string) :=
  List.filter (matches raw country_code) (rows raw).

Definition year_labels (raw : DataFrame) : list string :=
  value_labels (columns (strip_columns raw)).

Definition year_cells (raw : DataFrame) (row : list string) : list string :=
  value_cells (columns (strip_columns raw)) row.

Definition sentinel_count (cells : list string) : nat :=
  count_occ string_dec cells missing_sentinel.

(** Cells equal to the sentinel in the year columns of the matching rows. *)
Definition sentinel_cells (raw : DataFrame) (country_code : string) : nat :=
  list_sum (map (fun row => sentinel_count (year_cells raw row))
                (matching_rows raw country_code)).

(** The longest key of the table, in parts. *)
Definition widest_key (raw : DataFrame) : nat :=
  expand_width (map (key_parts raw) (rows raw)).

(** What the cell of [row] in the [j]-th year column contributes to the
    melted and queried frame: nothing when it is the sentinel, else one
    row. *)
Definition cell_rows (raw : DataFrame) (j : nat) (row : list string) : list MeltedRow :=
  let ps := key_parts raw row in
  let c := nth j (year_cells raw row) EmptyString in
  if String.eqb c missing_sentinel then []
  else [mkMeltedRow (nth_error ps 0) (nth_error ps 1) (nth_error ps 2)
                    (nth_error ps 3) (nth j (year_labels raw) EmptyString) c].

(** Year column by year column, and inside a column row by row. *)
Definition column_major (raw : DataFrame) (country_code : string) : list MeltedRow :=
  flat_map (fun j => flat_map (cell_rows raw j) (matching_rows raw country_code))
           (seq 0 (length (year_labels raw))).

(** Row by row, and inside a row year column by year column: the order
    the specification describes. *)
Definition row_major (raw : DataFrame) (country_code : string) : list MeltedRow :=
  flat_map (fun row => flat_map (fun j => cell_rows raw j row)
                                (seq 0 (length (year_labels raw))))
           (matching_rows raw country_code).

(** The melted frame before the query of line 46. *)
Definition melted_frame (raw : DataFrame) (country_code : string) : list MeltedRow :=
  match split_key (strip_columns raw) with
  | Ok keyed => melt_columns (year_labels raw) (filter_region country_code keyed)
  | Raise _ => []
  end.

(** ** The melted frame by position *)

(** The melted row of the [j]-th value column and the row [r]. *)
Definition melt_at (labels : list string) (j : nat) (r : KeyedRow) : MeltedRow :=
  mkMeltedRow (k_unit r) (k_sex r) (k_age r) (k_region r)
              (nth j labels EmptyString) (nth j (k_cells r) EmptyString).

(** ** The wording of the specification *)

(** The cleaning step in the words of the specification: every character
    that is not a digit or a decimal point is removed, and the rest is
    parsed. *)
Definition spec_pattern : list class_item := [Range "0" "9"; Lit "."].

Definition spec_clean_value (s : string) : option Decimal :=
  to_numeric (re_sub_negated spec_pattern s).

Fixpoint has_char (c : ascii) (s : string) : bool :=
  match s with
  | EmptyString => false
  | String d s' => Ascii.eqb d c || has_char c s'
  end.

(** Malformed keys as the specification has them: a row whose key does
    not split into exactly four parts makes the run abort. *)
Definition malformed_key_aborts (raw : DataFrame) (country_code : string)
    (fs : gmap string CsvFile) : Prop :=
  (exists row, In row (rows raw) /\ length (key_parts raw row) <> 4) ->
  exists e, clean_data raw country_code fs = (Raise e, fs).

(** Year labels as the specification has them: a label that is not an
    integer makes the run abort, and the file system is left as it was. *)
Definition bad_label_aborts (raw : DataFrame) (country_code : string)
    (fs : gmap string CsvFile) : Prop :=
  (exists label, In label (year_labels raw) /\ int_of_str label = None) ->
  exists e, clean_data raw country_code fs = (Raise e, fs).

Definition written_header : list string :=
  ["unit"; "sex"; "age"; "region"; "year"; "value"].

(** The written table as the specification has it: the six columns in
    order, and the rows input row by input row, and year column by year
    column inside each. *)
Definition written_row_major (raw : DataFrame) (country_code : string)
    (fs : gmap string CsvFile) : Prop :=
  forall out fs',
    clean_data raw country_code fs = (Ok out, fs') ->
    mapM convert (row_major raw country_code) = Ok out /\
    fs' !! output_file_path country_code = Some (mkCsvFile written_header out).


(** ** Decimal rendering *)

Definition digit_char (d : N) : ascii := ascii_of_N (48 + d).


(** The decimal digits of [n] without leading zeros, in front of [acc]. *)
Fixpoint integer_digits (fuel : nat) (n : N) (acc : list ascii) : list ascii :=
  match fuel with
  | 0 => acc
  | S fuel' =>
      let acc' := digit_char (n mod 10)%N :: acc in
      if (n <? 10)%N then acc' else integer_digits fuel' (n / 10)%N acc'
  end.



(** A string of digits and decimal points only. *)
Definition numeral_chars (cs : list ascii) : bool :=
  forallb (fun c => is_digit c || Ascii.eqb c ".") cs.

(** ** Tables used below

    Every year column of these tables holds a cell that is not a plain
    number, as the columns of the Eurostat file do, so that [read_csv]
    leaves the column as text. *)

(** The scenario of the specification, with a second row for another
    region. *)
Definition sample_raw : DataFrame :=
  mkDataFrame
    ["unit,sex,age,geo\time"; "1990 "; "1991 "]
    [["YR,F,Y_LT1,PT"; "81.2 b"; ": "];
     ["YR,F,Y_LT1,DE"; "80.0 "; "79.4 "]].

Definition sample_out : list CleanedRecord :=
  [mkCleanedRecord (Some "YR") (Some "F") (Some "Y_LT1") (Some "PT") 1990
                   (Some (mkDecimal 812 1))].

(** A table with a caret in a cell. *)
Definition caret_raw : DataFrame :=
  mkDataFrame
    ["unit,sex,age,geo\time"; "1990 "]
    [["YR,F,Y_LT1,PT"; "8^1"]].

(** A key of three parts next to a key of four. *)
Definition short_key_raw : DataFrame :=
  mkDataFrame
    ["unit,sex,age,geo\time"; "1990 "]
    [["YR,F,PT"; "81.2 e"];
     ["YR,F,Y_LT1,PT"; "80.0 "]].

(** A key of five parts. *)
Definition long_key_raw : DataFrame :=
  mkDataFrame
    ["unit,sex,age,geo\time"; "1990 "]
    [["YR,F,Y_LT1,PT,x"; "81.2 e"];
     ["YR,F,Y_LT1,PT"; "80.0 "]].

(** A column whose label is no integer, holding only the sentinel in the
    rows of the region. *)
Definition bad_label_raw : DataFrame :=
  mkDataFrame
    ["unit,sex,age,geo\time"; "1990 "; "notes "]
    [["YR,F,Y_LT1,PT"; "81.2 b"; ": "]].

Definition fatal_label_raw : DataFrame :=
  mkDataFrame
    ["unit,sex,age,geo\time"; "1990 "; "notes "]
    [["YR,F,Y_LT1,PT"; "81.2 b"; "revised"]].

(** Two rows of the region and two year columns. *)
Definition two_by_two_raw : DataFrame :=
  mkDataFrame
    ["unit,sex,age,geo\time"; "1990 "; "1991 "]
    [["YR,F,Y_LT1,PT"; "81.2 e"; "81.3 "];
     ["YR,M,Y_LT1,PT"; "74.1 "; "74.2 p"]].

Definition two_by_two_out : list CleanedRecord :=
  [mkCleanedRecord (Some "YR") (Some "F") (Some "Y_LT1") (Some "PT") 1990
                   (Some (mkDecimal 812 1));
   mkCleanedRecord (Some "YR") (Some "M") (Some "Y_LT1") (Some "PT") 1990
                   (Some (mkDecimal 741 1));
   mkCleanedRecord (Some "YR") (Some "F") (Some "Y_LT1") (Some "PT") 1991
                   (Some (mkDecimal 813 1));
   mkCleanedRecord (Some "YR") (Some "M") (Some "Y_LT1") (Some "PT") 1991
                   (Some (mkDecimal 742 1))].


(** ** Vocabulary of the further properties *)





(** A string made of characters that the pattern of line 50 deletes. *)
Fixpoint all_deleted (s : string) : bool :=
  match s with
  | EmptyString => true
  | String d s' => matches_negated value_pattern d && all_deleted s'
  end.


(** The decimal numeral of [n], without leading zeros. *)
Definition numeral (n : N) : string :=
  string_of_list_ascii (integer_digits (S (N.to_nat (N.log2 n))) n []).



(** The sample table with a header as it may come, spaces inside. *)
Definition spaced_raw : DataFrame :=
  mkDataFrame
    ["unit, sex, age, geo\time "; " 1990"; "1991  "]
    [["YR,F,Y_LT1,PT"; "81.2 b"; ": "];
     ["YR,F,Y_LT1,DE"; "80.0 "; "79.4 "]].

(** A table without the composite key column. *)
Definition keyless_raw : DataFrame :=
  mkDataFrame
    ["unit"; "geo"; "1990 "]
    [["YR"; "PT"; "81.2 b"]].

(** * Properties *)

(** ** Results of [mapM] *)

Section MapM.
Context {A B : Type} (f : A -> result B).

Lemma mapM_Ok_Forall2 (l : list A) (out : list B) :
  mapM f l = Ok out -> Forall2 (fun x y => f x = Ok y) l out.
Proof.
  revert out. induction l as [|x l IH]; simpl; intros out H.
  - injection H as <-. constructor.
  - destruct (f x) as [y|e] eqn:Hx; simpl in H; [|discriminate].
    destruct (mapM f l) as [ys|e] eqn:Hl; simpl in H; [|discriminate].
    injection H as <-. constructor; auto.
Qed.

Lemma mapM_Ok_length (l : list A) (out : list B) :
  mapM f l = Ok out -> length out = length l.
Proof.
  intros H. apply mapM_Ok_Forall2 in H.
  induction H; simpl; congruence.
Qed.

Lemma mapM_Raise (l : list A) (x : A) (e : exn) :
  In x l -> f x = Raise e -> exists e', mapM f l = Raise e'.
Proof.
  induction l as [|y l IH]; simpl; intros Hin Hx; [contradiction|].
  destruct Hin as [->|Hin].
  - rewrite Hx. simpl. eauto.
  - destruct (f y); simpl; eauto.
    destruct (IH Hin Hx) as [e' ->]. simpl. eauto.
Qed.
Lemma mapM_Ok_all (l : list A) :
  (forall x, In x l -> exists y, f x = Ok y) ->
  exists out, mapM f l = Ok out.
Proof.
  induction l as [|x l IH]; simpl; intros H; [eauto|].
  destruct (H x (or_introl eq_refl)) as [y ->].
  destruct IH as [ys ->]; [intros x' Hx'; apply H; auto|].
  simpl. eauto.
Qed.
End MapM.

(** ** The stages of [transform] *)

Lemma key_of_loc (raw : DataFrame) (k : nat) (row : list string) :
  get_loc key_label (columns (strip_columns raw)) = Some k ->
  key_of raw row = nth k row EmptyString.
Proof. intros H. unfold key_of. now rewrite H. Qed.

Lemma widest_key_loc (raw : DataFrame) (k : nat) :
  get_loc key_label (columns (strip_columns raw)) = Some k ->
  widest_key raw
  = expand_width (map (fun row => split "," (nth k row EmptyString)) (rows raw)).
Proof.
  intros H. unfold widest_key. f_equal. apply map_ext.
  intros row. unfold key_parts. now rewrite (key_of_loc _ _ _ H).
Qed.

(** The four outcomes of the run, by the first line that can raise. *)
Lemma transform_no_key (raw : DataFrame) (country_code : string) :
  get_loc key_label (columns (strip_columns raw)) = None ->
  transform raw country_code = Raise KeyError.
Proof. intros H. unfold transform, split_key. now rewrite H. Qed.

Lemma transform_bad_width (raw : DataFrame) (country_code : string) (k : nat) :
  get_loc key_label (columns (strip_columns raw)) = Some k ->
  widest_key raw <> 4 ->
  transform raw country_code = Raise ValueError.
Proof.
  intros H Hw. rewrite (widest_key_loc _ _ H) in Hw.
  unfold transform, split_key. rewrite H. simpl.
  apply Nat.eqb_neq in Hw. now rewrite Hw.
Qed.

Lemma split_key_Ok (raw : DataFrame) (k : nat) :
  get_loc key_label (columns (strip_columns raw)) = Some k ->
  widest_key raw = 4 ->
  split_key (strip_columns raw)
  = Ok (map (keyed_row k (columns (strip_columns raw))) (rows raw)).
Proof.
  intros H Hw. rewrite (widest_key_loc _ _ H) in Hw.
  unfold split_key. rewrite H. simpl.
  apply Nat.eqb_eq in Hw. now rewrite Hw.
Qed.

Lemma transform_run (raw : DataFrame) (country_code : string) (k : nat) :
  get_loc key_label (columns (strip_columns raw)) = Some k ->
  widest_key raw = 4 ->
  mem "value" (year_labels raw) = false ->
  year_labels raw <> [] ->
  transform raw country_code
  = mapM convert (query (melted_frame raw country_code)).
Proof.
  intros H Hw Hv Hl. unfold transform, melted_frame. cbv zeta.
  rewrite (split_key_Ok _ _ H Hw). unfold year_labels in *.
  cbn [bind]. unfold melt. rewrite Hv. cbn [bind].
  destruct (value_labels (columns (strip_columns raw)));
    [contradiction|reflexivity].
Qed.

Lemma transform_Ok_inv (raw : DataFrame) (country_code : string)
    (out : list CleanedRecord) :
  transform raw country_code = Ok out ->
  exists k,
    get_loc key_label (columns (strip_columns raw)) = Some k /\
    widest_key raw = 4 /\
    mem "value" (year_labels raw) = false /\
    year_labels raw <> [] /\
    mapM convert (query (melted_frame raw country_code)) = Ok out.
Proof.
  intros H.
  destruct (get_loc key_label (columns (strip_columns raw))) as [k|] eqn:Hk.
  2:{ rewrite (transform_no_key _ _ Hk) in H. discriminate. }
  exists k. split; [reflexivity|].
  destruct (Nat.eq_dec (widest_key raw) 4) as [Hw|Hw].
  2:{ rewrite (transform_bad_width _ _ _ Hk Hw) in H. discriminate. }
  split; [exact Hw|].
  assert (Hv : mem "value" (year_labels raw) = false).
  { destruct (mem "value" (year_labels raw)) eqn:Hv; [|reflexivity].
    unfold transform in H. cbv zeta in H.
    rewrite (split_key_Ok _ _ Hk Hw) in H. unfold year_labels in Hv.
    cbn [bind] in H. unfold melt in H. rewrite Hv in H. discriminate. }
  split; [exact Hv|].
  assert (Hl : year_labels raw <> []).
  { intros Hl. unfold transform in H. cbv zeta in H.
    rewrite (split_key_Ok _ _ Hk Hw) in H. unfold year_labels in Hv, Hl.
    cbn [bind] in H. unfold melt in H. rewrite Hv in H.
    cbn [bind] in H. rewrite Hl in H. discriminate. }
  split; [exact Hl|].
  now rewrite <- (transform_run _ _ _ Hk Hw Hv Hl).
Qed.

Lemma clean_data_Ok_inv (raw : DataFrame) (country_code : string)
    (fs fs' : gmap string CsvFile) (out : list CleanedRecord) :
  clean_data raw country_code fs = (Ok out, fs') ->
  transform raw country_code = Ok out /\
  fs' = <[output_file_path country_code := to_csv out]> fs.
Proof.
  unfold clean_data. destruct (transform raw country_code); intros H.
  - injection H as -> <-. auto.
  - discriminate.
Qed.

(** ** The shape of the melted frame *)

Lemma flat_map_map {A B C : Type} (f : B -> list C) (g : A -> B) (l : list A) :
  flat_map f (map g l) = flat_map (fun x => f (g x)) l.
Proof. induction l; simpl; congruence. Qed.

Lemma filter_flat_map {A B : Type} (p : B -> bool) (f : A -> list B) (l : list A) :
  List.filter p (flat_map f l) = flat_map (fun x => List.filter p (f x)) l.
Proof.
  induction l as [|x l IH]; simpl; [reflexivity|].
  now rewrite List.filter_app, IH.
Qed.

Lemma length_flat_map_const {A B : Type} (f : A -> list B) (l : list A) (n : nat) :
  (forall x, In x l -> length (f x) = n) ->
  length (flat_map f l) = length l * n.
Proof.
  induction l as [|x l IH]; simpl; intros H; [reflexivity|].
  rewrite length_app, IH, (H x); auto.
Qed.

Lemma melt_columns_index (labels : list string) (l : list KeyedRow) :
  melt_columns labels l
  = flat_map (fun j => map (melt_at labels j) l) (seq 0 (length labels)).
Proof.
  revert l. induction labels as [|label labels IH]; intros l; [reflexivity|].
  cbn [melt_columns length seq flat_map]. f_equal.
  - apply map_ext. intros r. unfold melt_at, melt_cell.
    destruct (k_cells r); reflexivity.
  - rewrite IH, <- seq_shift, flat_map_map.
    apply flat_map_ext. intros j. rewrite map_map.
    apply map_ext. intros r. unfold melt_at, drop_cell. cbn.
    destruct (k_cells r); [destruct j|]; reflexivity.
Qed.

Lemma length_melt_columns (labels : list string) (l : list KeyedRow) :
  length (melt_columns labels l) = length labels * length l.
Proof.
  rewrite melt_columns_index.
  rewrite (length_flat_map_const _ _ (length l)).
  - now rewrite length_seq.
  - intros j _. apply length_map.
Qed.

Lemma region_is_keyed_row (raw : DataFrame) (country_code : string) (k : nat)
    (row : list string) :
  get_loc key_label (columns (strip_columns raw)) = Some k ->
  region_is country_code (keyed_row k (columns (strip_columns raw)) row)
  = matches raw country_code row.
Proof.
  intros H. unfold region_is, matches, derived_region, key_parts, keyed_row.
  cbn [k_region]. now rewrite (key_of_loc _ _ _ H).
Qed.

Lemma filter_region_keyed (raw : DataFrame) (country_code : string) (k : nat) :
  get_loc key_label (columns (strip_columns raw)) = Some k ->
  filter_region country_code
    (map (keyed_row k (columns (strip_columns raw))) (rows raw))
  = map (keyed_row k (columns (strip_columns raw))) (matching_rows raw country_code).
Proof.
  intros H. unfold filter_region, matching_rows.
  rewrite filter_map_swap. f_equal. apply List.filter_ext.
  intros row. now apply region_is_keyed_row.
Qed.

Lemma melted_frame_keyed (raw : DataFrame) (country_code : string) (k : nat) :
  get_loc key_label (columns (strip_columns raw)) = Some k ->
  widest_key raw = 4 ->
  melted_frame raw country_code
  = melt_columns (year_labels raw)
      (map (keyed_row k (columns (strip_columns raw)))
           (matching_rows raw country_code)).
Proof.
  intros H Hw. unfold melted_frame.
  now rewrite (split_key_Ok _ _ H Hw), (filter_region_keyed _ _ _ H).
Qed.

Lemma filter_map_flat {A B : Type} (p : B -> bool) (g : A -> B) (l : list A) :
  List.filter p (map g l) = flat_map (fun x => if p (g x) then [g x] else []) l.
Proof.
  induction l as [|x l IH]; simpl; [reflexivity|].
  rewrite IH. destruct (p (g x)); reflexivity.
Qed.

Lemma cell_rows_keyed (raw : DataFrame) (k j : nat) (row : list string) :
  get_loc key_label (columns (strip_columns raw)) = Some k ->
  cell_rows raw j row
  = let m := melt_at (year_labels raw) j
               (keyed_row k (columns (strip_columns raw)) row) in
    if negb (String.eqb (m_value m) missing_sentinel) then [m] else [].
Proof.
  intros H. unfold cell_rows, melt_at, keyed_row, key_parts, year_cells.
  cbn [m_value k_cells k_unit k_sex k_age k_region].
  rewrite (key_of_loc _ _ _ H).
  destruct (String.eqb _ missing_sentinel); reflexivity.
Qed.

(** The queried frame, read off the raw table. *)
Lemma query_melted_frame (raw : DataFrame) (country_code : string) (k : nat) :
  get_loc key_label (columns (strip_columns raw)) = Some k ->
  widest_key raw = 4 ->
  query (melted_frame raw country_code) = column_major raw country_code.
Proof.
  intros H Hw. rewrite (melted_frame_keyed _ _ _ H Hw).
  rewrite melt_columns_index. unfold query, column_major.
  rewrite filter_flat_map. apply flat_map_ext. intros j.
  rewrite map_map, filter_map_flat. apply flat_map_ext. intros row.
  now rewrite (cell_rows_keyed _ _ _ _ H).
Qed.

Lemma In_column_major (raw : DataFrame) (country_code : string) (m : MeltedRow) :
  In m (column_major raw country_code) <->
  exists j row,
    j < length (year_labels raw) /\
    In row (matching_rows raw country_code) /\
    In m (cell_rows raw j row).
Proof.
  unfold column_major. rewrite in_flat_map. split.
  - intros (j & Hj & Hm). apply in_flat_map in Hm as (row & Hrow & Hm).
    apply in_seq in Hj. exists j, row. repeat split; auto. lia.
  - intros (j & row & Hj & Hrow & Hm). exists j. split.
    + apply in_seq. lia.
    + apply in_flat_map. eauto.
Qed.

Lemma matching_rows_region (raw : DataFrame) (country_code : string)
    (row : list string) :
  In row (matching_rows raw country_code) <->
  In row (rows raw) /\ derived_region raw row = Some country_code.
Proof.
  unfold matching_rows, matches. rewrite filter_In.
  destruct (derived_region raw row) as [g|]; split; intros [Hin H];
    split; auto; try discriminate.
  - apply String.eqb_eq in H. now subst.
  - injection H as ->. apply String.eqb_refl.
Qed.

Lemma convert_Ok (m : MeltedRow) (r : CleanedRecord) :
  convert m = Ok r ->
  unit r = m_unit m /\ sex r = m_sex m /\ age r = m_age m /\
  region r = m_region m /\
  astype_int (m_year m) = Ok (year r) /\
  value r = clean_value (m_value m).
Proof.
  unfold convert. destruct (astype_int (m_year m)) as [y|e]; simpl; intros H.
  - injection H as <-. simpl. repeat split; reflexivity.
  - discriminate.
Qed.

(** The rows returned are the rows of the queried frame, one for one and
    in its order. *)
Lemma transform_rows (raw : DataFrame) (country_code : string)
    (out : list CleanedRecord) :
  transform raw country_code = Ok out ->
  Forall2 (fun m r => convert m = Ok r) (column_major raw country_code) out.
Proof.
  intros H. apply transform_Ok_inv in H as (k & Hk & Hw & _ & _ & H).
  rewrite (query_melted_frame _ _ _ Hk Hw) in H.
  now apply mapM_Ok_Forall2.
Qed.

Lemma Forall2_In_r {A B : Type} (R : A -> B -> Prop) (l : list A) (l' : list B)
    (y : B) :
  Forall2 R l l' -> In y l' -> exists x, In x l /\ R x y.
Proof.
  induction 1 as [|x y' l l' HR _ IH]; simpl; [contradiction|].
  intros [->|Hin]; [eauto|]. destruct (IH Hin) as (x' & ? & ?). eauto.
Qed.

Lemma Forall2_In_l {A B : Type} (R : A -> B -> Prop) (l : list A) (l' : list B)
    (x : A) :
  Forall2 R l l' -> In x l -> exists y, In y l' /\ R x y.
Proof.
  induction 1 as [|x' y l l' HR _ IH]; simpl; [contradiction|].
  intros [->|Hin]; [eauto|]. destruct (IH Hin) as (y' & ? & ?). eauto.
Qed.

(** Where a returned row comes from: a row of the raw table whose key
    carries the requested region, and one of its year cells. *)
Lemma transform_row_origin (raw : DataFrame) (country_code : string)
    (out : list CleanedRecord) (r : CleanedRecord) :
  transform raw country_code = Ok out ->
  In r out ->
  exists j row,
    j < length (year_labels raw) /\
    In row (rows raw) /\
    derived_region raw row = Some country_code /\
    nth j (year_cells raw row) EmptyString <> missing_sentinel /\
    unit r = nth_error (key_parts raw row) 0 /\
    sex r = nth_error (key_parts raw row) 1 /\
    age r = nth_error (key_parts raw row) 2 /\
    region r = nth_error (key_parts raw row) 3 /\
    astype_int (nth j (year_labels raw) EmptyString) = Ok (year r) /\
    value r = clean_value (nth j (year_cells raw row) EmptyString).
Proof.
  intros H Hin. apply transform_rows in H.
  destruct (Forall2_In_r _ _ _ _ H Hin) as (m & Hm & Hc).
  apply In_column_major in Hm as (j & row & Hj & Hrow & Hm).
  apply matching_rows_region in Hrow as [Hrow Hreg].
  exists j, row. unfold cell_rows in Hm.
  destruct (String.eqb _ missing_sentinel) eqn:Hs; [contradiction|].
  apply String.eqb_neq in Hs. destruct Hm as [<-|[]].
  apply convert_Ok in Hc. cbn in Hc. tauto.
Qed.

(** When the run returns: the key column is there, the longest key has
    four parts, there is a year column, none is labelled value, and the
    year labels are integers that fit 64 bits. *)
Lemma clean_data_returns (raw : DataFrame) (country_code : string)
    (fs : gmap string CsvFile) (k : nat) :
  get_loc key_label (columns (strip_columns raw)) = Some k ->
  widest_key raw = 4 ->
  mem "value" (year_labels raw) = false ->
  year_labels raw <> [] ->
  (forall j, j < length (year_labels raw) ->
             exists y, astype_int (nth j (year_labels raw) EmptyString) = Ok y) ->
  exists out,
    clean_data raw country_code fs
    = (Ok out, <[output_file_path country_code := to_csv out]> fs).
Proof.
  intros Hk Hw Hv Hl Hy. unfold clean_data.
  rewrite (transform_run _ _ _ Hk Hw Hv Hl), (query_melted_frame _ _ _ Hk Hw).
  destruct (mapM_Ok_all convert (column_major raw country_code)) as [out ->];
    [|eauto].
  intros m Hm. apply In_column_major in Hm as (j & row & Hj & _ & Hm).
  unfold cell_rows in Hm.
  destruct (String.eqb _ missing_sentinel); [contradiction|].
  destruct Hm as [<-|[]]. unfold convert. cbn [m_year].
  destruct (Hy j Hj) as [y ->]. cbn. eauto.
Qed.

(** ** Filter correctness *)

(** C1.  Whatever the input table and the region code, when [clean_data]
    returns a table every row of it has the requested code as its region
    (the same string, character for character), and the file written at the
    output path holds these very rows. *)
Theorem filter_correctness (raw : DataFrame) (country_code : string)
    (fs fs' : gmap string CsvFile) (out : list CleanedRecord) :
  clean_data raw country_code fs = (Ok out, fs') ->
  Forall (fun r => region r = Some country_code) out /\
  exists file,
    fs' !! output_file_path country_code = Some file /\
    csv_records file = out.
Proof.
  intros H. apply clean_data_Ok_inv in H as [H ->]. split.
  - apply List.Forall_forall. intros r Hr.
    destruct (transform_row_origin _ _ _ _ H Hr)
      as (j & row & _ & _ & Hreg & _ & _ & _ & _ & Hr3 & _).
    unfold derived_region in Hreg. congruence.
  - exists (to_csv out). split; [apply lookup_insert_eq|reflexivity].
Qed.

Lemma filter_correctness_witness :
  Forall (fun r => region r = Some "PT") sample_out /\
  exists file,
    (<[output_file_path "PT" := to_csv sample_out]> (∅ : gmap string CsvFile))
      !! output_file_path "PT" = Some file /\
    csv_records file = sample_out.
Proof.
  apply (filter_correctness sample_raw "PT" ∅). reflexivity.
Defined.

(** ** Row count *)

Lemma sentinel_count_cons (c : string) (cs : list string) :
  sentinel_count (c :: cs)
  = (if String.eqb c missing_sentinel then 1 else 0) + sentinel_count cs.
Proof.
  unfold sentinel_count. cbn [count_occ].
  destruct (string_dec c missing_sentinel) as [->|Hne].
  - now rewrite String.eqb_refl.
  - apply String.eqb_neq in Hne. now rewrite Hne.
Qed.

Lemma length_value_cells (cols row : list string) :
  length row = length cols ->
  length (value_cells cols row) = length (value_labels cols).
Proof.
  revert row. induction cols as [|c cols IH]; intros [|x row] H;
    try discriminate; [reflexivity|].
  injection H as H. cbn. destruct (is_value_label c); cbn; auto.
Qed.

(** One column of the melted frame: a row of the queried frame for each
    cell that is not the sentinel. *)
Lemma query_column (label : string) (l : list KeyedRow) :
  Forall (fun r => k_cells r <> []) l ->
  length (query (map (melt_cell label) l))
  + list_sum (map (fun r => sentinel_count (k_cells r)) l)
  = length l + list_sum (map (fun r => sentinel_count (k_cells (drop_cell r))) l).
Proof.
  induction 1 as [|r l Hr _ IH]; [reflexivity|].
  cbn [map list_sum length query List.filter] in *.
  destruct (k_cells r) as [|c cs] eqn:Hc; [contradiction|].
  unfold melt_cell at 1, drop_cell at 1. cbn [m_value k_cells].
  rewrite Hc, sentinel_count_cons. cbn [hd tl].
  unfold query, list_sum in *. cbn [fold_right].
  destruct (String.eqb c missing_sentinel); cbn [negb length]; lia.
Qed.

Lemma query_melt_count (labels : list string) (l : list KeyedRow) :
  Forall (fun r => length (k_cells r) = length labels) l ->
  length (query (melt_columns labels l))
  + list_sum (map (fun r => sentinel_count (k_cells r)) l)
  = length labels * length l.
Proof.
  revert l. induction labels as [|label labels IH]; intros l Hl.
  - cbn. induction Hl as [|r l Hr _ IHl]; [reflexivity|].
    cbn in *. destruct (k_cells r); [|discriminate]. exact IHl.
  - cbn [melt_columns length]. unfold query in *.
    rewrite List.filter_app, length_app.
    assert (Hne : Forall (fun r => k_cells r <> []) l).
    { eapply List.Forall_impl; [|exact Hl]. cbn. intros r Hr Hnil.
      rewrite Hnil in Hr. discriminate. }
    pose proof (query_column label l Hne) as Hcol. unfold query in Hcol.
    assert (Hdrop : Forall (fun r => length (k_cells r) = length labels)
                           (map drop_cell l)).
    { apply List.Forall_map. eapply List.Forall_impl; [|exact Hl]. cbn.
      intros r Hr. destruct (k_cells r); [discriminate|]. cbn in *. lia. }
    specialize (IH _ Hdrop). rewrite map_map, length_map in IH.
    lia.
Qed.

(** C2.  When [clean_data] returns a table on a rectangular input, the
    number of its rows is the number of input rows whose derived region is
    the region code, times the number of year columns, minus the number of
    cells of those rows that are exactly the sentinel (which never exceeds
    the product). *)
Theorem row_count_law (raw : DataFrame) (country_code : string)
    (fs fs' : gmap string CsvFile) (out : list CleanedRecord) :
  rectangular raw ->
  clean_data raw country_code fs = (Ok out, fs') ->
  length out
  = length (matching_rows raw country_code) * length (year_labels raw)
    - sentinel_cells raw country_code /\
  sentinel_cells raw country_code
  <= length (matching_rows raw country_code) * length (year_labels raw).
Proof.
  intros Hrect H. apply clean_data_Ok_inv in H as [H _].
  apply transform_Ok_inv in H as (k & Hk & Hw & _ & _ & H).
  apply mapM_Ok_length in H.
  rewrite (melted_frame_keyed _ _ _ Hk Hw) in H.
  pose proof (query_melt_count (year_labels raw)
                (map (keyed_row k (columns (strip_columns raw)))
                     (matching_rows raw country_code))) as Hcount.
  rewrite map_map, length_map in Hcount.
  change (list_sum _) with (sentinel_cells raw country_code) in Hcount.
  enough (length out + sentinel_cells raw country_code
          = length (year_labels raw) * length (matching_rows raw country_code))
    by lia.
  rewrite H. apply Hcount.
  apply List.Forall_map, List.Forall_forall. intros row Hrow.
  apply matching_rows_region in Hrow as [Hrow _].
  unfold keyed_row. cbn [k_cells]. apply length_value_cells.
  unfold rectangular in Hrect. rewrite List.Forall_forall in Hrect.
  cbn. rewrite length_map. now apply Hrect.
Qed.

Lemma row_count_law_witness :
  length sample_out
  = length (matching_rows sample_raw "PT") * length (year_labels sample_raw)
    - sentinel_cells sample_raw "PT" /\
  sentinel_cells sample_raw "PT"
  <= length (matching_rows sample_raw "PT") * length (year_labels sample_raw).
Proof.
  apply (row_count_law sample_raw "PT" ∅
           (<[output_file_path "PT" := to_csv sample_out]> ∅)).
  - repeat constructor.
  - reflexivity.
Defined.

(** ** Value cleaning *)

(** Away from carets the pattern of the code and the one of the
    specification delete the same characters. *)
Lemma re_sub_caret_free (s : string) :
  has_char "^" s = false ->
  re_sub_negated value_pattern s = re_sub_negated spec_pattern s.
Proof.
  induction s as [|c s IH]; [reflexivity|]. cbn [has_char].
  intros H. apply orb_false_iff in H as [Hc Hs].
  cbn [re_sub_negated]. rewrite (IH Hs).
  unfold matches_negated, value_pattern, spec_pattern.
  cbn [existsb in_item]. rewrite Hc. cbn [orb].
  destruct ((N_of_ascii "0" <=? N_of_ascii c)%N
            && (N_of_ascii c <=? N_of_ascii "9")%N);
    destruct (Ascii.eqb c "."); reflexivity.
Qed.

Lemma clean_value_caret_free (s : string) :
  has_char "^" s = false -> clean_value s = spec_clean_value s.
Proof.
  intros H. unfold clean_value, spec_clean_value.
  now rewrite re_sub_caret_free.
Qed.

(** C3.  The pattern of line 50 keeps carets besides digits and decimal
    points: the cell [8^1] is cleaned to an absent value, where stripping
    every character that is not a digit or a decimal point leaves [81],
    which parses. *)
Theorem clean_value_keeps_caret :
  clean_value "8^1" = None /\
  spec_clean_value "8^1" = Some (mkDecimal 81 0) /\
  transform caret_raw "PT"
  = Ok [mkCleanedRecord (Some "YR") (Some "F") (Some "Y_LT1") (Some "PT")
                        1990 None].
Proof. repeat split; reflexivity. Qed.

(** ** The sentinel *)

Lemma MeltedRow_eq_dec (a b : MeltedRow) : {a = b} + {a <> b}.
Proof. repeat decide equality. Defined.

Lemma count_occ_filter {A : Type} (dec : forall x y : A, {x = y} + {x <> y})
    (p : A -> bool) (l : list A) (x : A) :
  count_occ dec (List.filter p l) x
  = if p x then count_occ dec l x else 0.
Proof.
  induction l as [|y l IH]; cbn [List.filter count_occ].
  - now destruct (p x).
  - destruct (p y) eqn:Hy; cbn [count_occ]; rewrite IH;
      destruct (dec y x) as [->|Hne]; try reflexivity.
    + now rewrite Hy.
    + now rewrite Hy.
Qed.

(** C4.  In a run that returns, a row of the melted frame is dropped by
    the query exactly when its raw value is the two-character sentinel
    (each copy of any other row is kept), and the returned rows are the
    kept rows, one for one and in order, each with the cleaned value of its
    raw string, absent when that does not parse; so a colon alone, or with
    two spaces, or another mark such as a dash, gives a returned row
    without a value. *)
Theorem sentinel_rows_dropped (raw : DataFrame) (country_code : string)
    (fs fs' : gmap string CsvFile) (out : list CleanedRecord) :
  clean_data raw country_code fs = (Ok out, fs') ->
  let melted := melted_frame raw country_code in
  (forall m, In m melted ->
             (In m (query melted) <-> m_value m <> missing_sentinel)) /\
  (forall m, count_occ MeltedRow_eq_dec (query melted) m
             = if String.eqb (m_value m) missing_sentinel then 0
               else count_occ MeltedRow_eq_dec melted m) /\
  Forall2 (fun m r => value r = clean_value (m_value m) /\
                      unit r = m_unit m /\ sex r = m_sex m /\
                      age r = m_age m /\ region r = m_region m /\
                      astype_int (m_year m) = Ok (year r))
          (query melted) out /\
  clean_value ":" = None /\ clean_value ":  " = None /\
  clean_value " :" = None /\ clean_value "-" = None.
Proof.
  intros H melted. apply clean_data_Ok_inv in H as [H _].
  apply transform_Ok_inv in H as (k & _ & _ & _ & _ & H).
  fold melted in H. split; [|split; [|split]].
  - intros m Hm. unfold query. rewrite filter_In, negb_true_iff.
    rewrite String.eqb_neq. tauto.
  - intros m. unfold query. rewrite count_occ_filter.
    now destruct (String.eqb (m_value m) missing_sentinel).
  - apply mapM_Ok_Forall2 in H.
    eapply Forall2_impl; [exact H|]. cbn. intros m r Hc.
    apply convert_Ok in Hc. tauto.
  - repeat split; reflexivity.
Qed.

Lemma sentinel_rows_dropped_witness :
  let melted := melted_frame sample_raw "PT" in
  (forall m, In m melted ->
             (In m (query melted) <-> m_value m <> missing_sentinel)) /\
  (forall m, count_occ MeltedRow_eq_dec (query melted) m
             = if String.eqb (m_value m) missing_sentinel then 0
               else count_occ MeltedRow_eq_dec melted m) /\
  Forall2 (fun m r => value r = clean_value (m_value m) /\
                      unit r = m_unit m /\ sex r = m_sex m /\
                      age r = m_age m /\ region r = m_region m /\
                      astype_int (m_year m) = Ok (year r))
          (query melted) sample_out /\
  clean_value ":" = None /\ clean_value ":  " = None /\
  clean_value " :" = None /\ clean_value "-" = None.
Proof.
  apply (sentinel_rows_dropped sample_raw "PT" ∅
           (<[output_file_path "PT" := to_csv sample_out]> ∅)).
  reflexivity.
Defined.

(** Near misses of the sentinel stay in the table, without a value. *)
Example near_sentinels_kept :
  transform
    (mkDataFrame ["unit,sex,age,geo\time"; "1990 "; "1991 "; "1992 "]
                 [["YR,F,Y_LT1,PT"; ":"; ": "; ":  "]])
    "PT"
  = Ok [mkCleanedRecord (Some "YR") (Some "F") (Some "Y_LT1") (Some "PT")
                        1990 None;
        mkCleanedRecord (Some "YR") (Some "F") (Some "Y_LT1") (Some "PT")
                        1992 None].
Proof. reflexivity. Qed.

(** ** Malformed keys *)

Lemma expand_width_ge (parts : list (list string)) (p : list string) :
  In p parts -> length p <= expand_width parts.
Proof.
  unfold expand_width. induction parts as [|q parts IH]; cbn; [contradiction|].
  intros [->|Hin]; [lia|]. specialize (IH Hin). lia.
Qed.

Lemma key_parts_le_widest (raw : DataFrame) (row : list string) :
  In row (rows raw) -> length (key_parts raw row) <= widest_key raw.
Proof.
  intros H. unfold widest_key. apply expand_width_ge. now apply in_map.
Qed.

Lemma four_parts (ps : list string) (g : string) :
  nth_error ps 3 = Some g -> length ps <= 4 ->
  exists u s a, ps = [u; s; a; g].
Proof.
  destruct ps as [|u [|s [|a [|g' [|x ps]]]]]; cbn; intros H Hl;
    try discriminate; try lia.
  injection H as ->. eauto.
Qed.

(** Counterexample to C5 as stated: the run on [short_key_raw] returns a
    table and writes it, although the first key has three parts. *)
Lemma short_key_not_fatal : ~ malformed_key_aborts short_key_raw "PT" ∅.
Proof.
  intros H. destruct H as [e He].
  - exists ["YR,F,PT"; "81.2 e"]. split; [now left|].
    cbn. discriminate.
  - discriminate He.
Qed.

(** C5, amended.  With the key column in place, a table whose longest key
    does not have exactly four parts makes the run abort with [ValueError]
    and write nothing: so does any key of more than four parts.  A shorter
    key beside a key of four parts does not abort the run.  Either way
    no returned row has a missing or shifted field: it comes from an input
    row whose key has exactly four parts, which are its unit, sex, age and
    region in this order. *)
Theorem malformed_key (raw : DataFrame) (country_code : string)
    (fs : gmap string CsvFile) (k : nat) :
  get_loc key_label (columns (strip_columns raw)) = Some k ->
  (widest_key raw <> 4 ->
   clean_data raw country_code fs = (Raise ValueError, fs)) /\
  (forall row, In row (rows raw) -> 4 < length (key_parts raw row) ->
   clean_data raw country_code fs = (Raise ValueError, fs)) /\
  (forall out fs' r,
     clean_data raw country_code fs = (Ok out, fs') -> In r out ->
     exists row u s a g,
       In row (rows raw) /\ key_parts raw row = [u; s; a; g] /\
       unit r = Some u /\ sex r = Some s /\ age r = Some a /\
       region r = Some g).
Proof.
  intros Hk.
  assert (Habort : widest_key raw <> 4 ->
                   clean_data raw country_code fs = (Raise ValueError, fs)).
  { intros Hw. unfold clean_data.
    now rewrite (transform_bad_width _ _ _ Hk Hw). }
  split; [exact Habort|split].
  - intros row Hrow Hlen. apply Habort.
    pose proof (key_parts_le_widest _ _ Hrow). lia.
  - intros out fs' r H Hr. apply clean_data_Ok_inv in H as [H _].
    destruct (transform_row_origin _ _ _ _ H Hr)
      as (j & row & _ & Hrow & Hreg & _ & Hu & Hs & Ha & Hg & _).
    apply transform_Ok_inv in H as (_ & _ & Hw & _).
    pose proof (key_parts_le_widest _ _ Hrow) as Hle. rewrite Hw in Hle.
    destruct (four_parts _ _ Hreg Hle) as (u & s & a & Hps).
    exists row, u, s, a, country_code. rewrite Hps in *. auto 10.
Qed.

Lemma malformed_key_witness :
  clean_data long_key_raw "PT" ∅ = (Raise ValueError, ∅) /\
  exists row u s a g,
    In row (rows short_key_raw) /\ key_parts short_key_raw row = [u; s; a; g] /\
    Some "YR" = Some u /\ Some "F" = Some s /\ Some "Y_LT1" = Some a /\
    Some "PT" = Some g.
Proof.
  split.
  - apply (malformed_key long_key_raw "PT" ∅ 0); [reflexivity|].
    cbn. lia.
  - apply (malformed_key short_key_raw "PT" ∅ 0 eq_refl)
      with (out := [mkCleanedRecord (Some "YR") (Some "F") (Some "Y_LT1")
                                    (Some "PT") 1990 (Some (mkDecimal 800 1))])
           (fs' := <[output_file_path "PT"
                     := to_csv [mkCleanedRecord (Some "YR") (Some "F")
                                  (Some "Y_LT1") (Some "PT") 1990
                                  (Some (mkDecimal 800 1))]]> ∅)
           (r := mkCleanedRecord (Some "YR") (Some "F") (Some "Y_LT1")
                                 (Some "PT") 1990 (Some (mkDecimal 800 1))).
    + reflexivity.
    + now left.
Defined.

Example short_key_run :
  clean_data short_key_raw "PT" ∅
  = (Ok [mkCleanedRecord (Some "YR") (Some "F") (Some "Y_LT1") (Some "PT")
                         1990 (Some (mkDecimal 800 1))],
     <[output_file_path "PT"
       := to_csv [mkCleanedRecord (Some "YR") (Some "F") (Some "Y_LT1")
                                  (Some "PT") 1990 (Some (mkDecimal 800 1))]]> ∅).
Proof. reflexivity. Qed.

(** ** Year labels *)

Example bad_label_run :
  clean_data bad_label_raw "PT" ∅
  = (Ok sample_out, <[output_file_path "PT" := to_csv sample_out]> ∅).
Proof. reflexivity. Qed.

(** Counterexample to C6 as stated: the label [notes] is never converted,
    no row of the queried frame carries it, and the run returns and writes
    the file. *)
Lemma bad_label_not_fatal : ~ bad_label_aborts bad_label_raw "PT" ∅.
Proof.
  intros H. destruct H as [e He].
  - exists "notes". split; [cbn; auto|reflexivity].
  - rewrite bad_label_run in He. discriminate He.
Qed.

Lemma In_cell_rows (raw : DataFrame) (j : nat) (row : list string) :
  nth j (year_cells raw row) EmptyString <> missing_sentinel ->
  exists m, In m (cell_rows raw j row) /\
            m_year m = nth j (year_labels raw) EmptyString.
Proof.
  intros H. apply String.eqb_neq in H. unfold cell_rows. rewrite H.
  eexists. split; [now left|reflexivity].
Qed.

(** C6, amended.  When a year column whose label does not parse as an
    integer holds, in some row of the requested region, a cell that is not
    the sentinel, the run aborts with an exception before line 63: nothing
    is returned and the file system is as it was. *)
Theorem year_parse_failure (raw : DataFrame) (country_code : string)
    (fs : gmap string CsvFile) (row : list string) (j : nat) :
  In row (rows raw) ->
  derived_region raw row = Some country_code ->
  j < length (year_labels raw) ->
  nth j (year_cells raw row) EmptyString <> missing_sentinel ->
  int_of_str (nth j (year_labels raw) EmptyString) = None ->
  exists e, clean_data raw country_code fs = (Raise e, fs).
Proof.
  intros Hrow Hreg Hj Hcell Hint. unfold clean_data.
  destruct (transform raw country_code) as [out|e] eqn:H; [exfalso|eauto].
  apply transform_rows in H.
  destruct (In_cell_rows raw j row Hcell) as (m & Hm & Hy).
  assert (Hin : In m (column_major raw country_code)).
  { apply In_column_major. exists j, row. repeat split; auto.
    apply matching_rows_region. auto. }
  destruct (Forall2_In_l _ _ _ _ H Hin) as (r & _ & Hc).
  apply convert_Ok in Hc as (_ & _ & _ & _ & Hc & _).
  unfold astype_int in Hc. rewrite Hy, Hint in Hc. discriminate.
Qed.

Lemma year_parse_failure_witness :
  exists e, clean_data fatal_label_raw "PT" ∅ = (Raise e, ∅).
Proof.
  apply (year_parse_failure fatal_label_raw "PT" ∅
           ["YR,F,Y_LT1,PT"; "81.2 b"; "revised"] 1).
  - now left.
  - reflexivity.
  - cbn. lia.
  - cbn. discriminate.
  - reflexivity.
Defined.

(** ** Columns and order of the written table *)

Example two_by_two_run :
  clean_data two_by_two_raw "PT" ∅
  = (Ok two_by_two_out,
     <[output_file_path "PT" := to_csv two_by_two_out]> ∅).
Proof. reflexivity. Qed.

(** Counterexample to C7 as stated: the second returned row is the year
    1990 of the second input row, not the year 1991 of the first. *)
Lemma two_by_two_not_row_major : ~ written_row_major two_by_two_raw "PT" ∅.
Proof.
  intros H. destruct (H _ _ two_by_two_run) as [Hrows _].
  discriminate Hrows.
Qed.

(** C7, amended.  The written table has the columns unit, sex, age,
    region, year, value in this order; its rows, which are the returned
    rows, go year column by year column in the order of the header, and
    inside a year column input row by input row, one row for each cell of a
    row of the region that is not the sentinel; nothing is sorted. *)
Theorem written_column_major (raw : DataFrame) (country_code : string)
    (fs fs' : gmap string CsvFile) (out : list CleanedRecord) :
  clean_data raw country_code fs = (Ok out, fs') ->
  mapM convert (column_major raw country_code) = Ok out /\
  fs' !! output_file_path country_code = Some (mkCsvFile written_header out).
Proof.
  intros H. apply clean_data_Ok_inv in H as [H ->]. split.
  - apply transform_Ok_inv in H as (k & Hk & Hw & _ & _ & H).
    now rewrite <- (query_melted_frame _ _ _ Hk Hw).
  - apply lookup_insert_eq.
Qed.

Lemma written_column_major_witness :
  mapM convert (column_major two_by_two_raw "PT") = Ok two_by_two_out /\
  (<[output_file_path "PT" := to_csv two_by_two_out]> (∅ : gmap string CsvFile))
    !! output_file_path "PT"
  = Some (mkCsvFile written_header two_by_two_out).
Proof.
  apply (written_column_major two_by_two_raw "PT" ∅). reflexivity.
Defined.

(** ** A region without rows *)





(** ** Determinism *)


(** ** Cleaning a cleaned value again *)

Lemma digit_char_spec (d : N) :
  (d < 10)%N ->
  is_digit (digit_char d) = true /\ digit_value (digit_char d) = d.
Proof.
  intros H. unfold is_digit, digit_value, digit_char.
  rewrite N_ascii_embedding by lia. split; [|lia].
  apply andb_true_iff. split; apply N.leb_le; lia.
Qed.

Lemma digits_value_app (l1 l2 : list ascii) (acc : N) :
  digits_value (l1 ++ l2) acc = digits_value l2 (digits_value l1 acc).
Proof. revert acc. induction l1 as [|c l1 IH]; intros acc; cbn; auto. Qed.


Lemma integer_digits_spec (f : nat) (n : N) (acc : list ascii) :
  (n < 2 ^ N.of_nat (S f))%N ->
  exists ds,
    integer_digits (S f) n acc = ds ++ acc /\
    forallb is_digit ds = true /\ ds <> [] /\
    forall a, digits_value ds a = (a * 10 ^ N.of_nat (length ds) + n)%N.
Proof.
  revert n acc. induction f as [|f IH]; intros n acc Hn.
  - change (2 ^ N.of_nat 1)%N with 2%N in Hn.
    assert (Hlt : (n mod 10 < 10)%N) by (apply N.mod_lt; discriminate).
    destruct (digit_char_spec _ Hlt) as [Hdig Hdv].
    exists [digit_char (n mod 10)%N]. cbn [integer_digits].
    replace (n <? 10)%N with true by (symmetry; apply N.ltb_lt; lia).
    repeat split; [cbn; now rewrite Hdig|discriminate|].
    intros a. cbn [digits_value length]. rewrite Hdv.
    change (10 ^ N.of_nat 1)%N with 10%N. rewrite N.mod_small; lia.
  - assert (Hlt : (n mod 10 < 10)%N) by (apply N.mod_lt; discriminate).
    destruct (digit_char_spec _ Hlt) as [Hdig Hdv].
    cbn [integer_digits]. destruct (n <? 10)%N eqn:Hsmall.
    + apply N.ltb_lt in Hsmall. exists [digit_char (n mod 10)%N].
      repeat split; [cbn; now rewrite Hdig|discriminate|].
      intros a. cbn [digits_value length]. rewrite Hdv.
      change (10 ^ N.of_nat 1)%N with 10%N. rewrite N.mod_small; lia.
    + assert (Hdiv : (n / 10 < 2 ^ N.of_nat (S f))%N).
      { apply N.Div0.div_lt_upper_bound.
        rewrite (Nat2N.inj_succ (S f)), N.pow_succ_r' in Hn. lia. }
      destruct (IH (n / 10)%N (digit_char (n mod 10)%N :: acc) Hdiv)
        as (ds & Heq & Hd & _ & Hval).
      exists (ds ++ [digit_char (n mod 10)%N]). split; [|split; [|split]].
      * change (integer_digits (S f) (n / 10)%N
                  (digit_char (n mod 10)%N :: acc)
                = (ds ++ [digit_char (n mod 10)%N]) ++ acc).
        now rewrite Heq, <- app_assoc.
      * rewrite forallb_app, Hd. cbn. now rewrite Hdig.
      * intros Hnil. apply app_eq_nil in Hnil as [_ Hnil]. discriminate.
      * intros a. rewrite digits_value_app, Hval. cbn [digits_value].
        rewrite Hdv, length_app. cbn [length].
        rewrite Nat.add_1_r, Nat2N.inj_succ, N.pow_succ_r'.
        pose proof (N.Div0.div_mod n 10). lia.
Qed.


Lemma re_sub_numeral (cs : list ascii) :
  numeral_chars cs = true ->
  re_sub_negated value_pattern (string_of_list_ascii cs)
  = string_of_list_ascii cs.
Proof.
  induction cs as [|c cs IH]; [reflexivity|]. cbn.
  intros H. apply andb_true_iff in H as [Hc Hcs]. rewrite (IH Hcs).
  replace (matches_negated value_pattern c) with false; [reflexivity|].
  symmetry. unfold matches_negated, value_pattern. cbn [existsb in_item].
  apply negb_false_iff. apply orb_true_iff in Hc as [Hc|Hc].
  - unfold is_digit in Hc. change (N_of_ascii "0") with 48%N.
    change (N_of_ascii "9") with 57%N. now rewrite Hc.
  - rewrite Hc. now rewrite orb_true_r.
Qed.




Lemma integer_part_digits (n : N) :
  exists ds,
    integer_digits (S (N.to_nat (N.log2 n))) n [] = ds /\
    forallb is_digit ds = true /\ ds <> [] /\
    digits_value ds 0%N = n.
Proof.
  assert (Hn : (n < 2 ^ N.of_nat (S (N.to_nat (N.log2 n))))%N).
  { rewrite Nat2N.inj_succ, N2Nat.id.
    destruct (N.eq_dec n 0%N) as [->|Hn]; [reflexivity|].
    apply N.log2_spec. lia. }
  destruct (integer_digits_spec _ n [] Hn) as (ds & Heq & Hd & Hne & Hval).
  exists ds. rewrite app_nil_r in Heq.
  split; [exact Heq|]. split; [exact Hd|]. split; [exact Hne|].
  apply (Hval 0%N).
Qed.




(** Any string of digits around one decimal point is left as it is by the
    replacement, so it is cleaned to the number it reads as. *)
Lemma clean_value_of_numeral (s : string) :
  numeral_chars (list_ascii_of_string s) = true ->
  clean_value s = to_numeric s.
Proof.
  intros H. unfold clean_value.
  rewrite <- (string_of_list_ascii_of_string s) at 1.
  rewrite (re_sub_numeral _ H). now rewrite string_of_list_ascii_of_string.
Qed.

(** * Further properties *)

(** ** The header *)

Lemma strip_columns_ext (raw raw' : DataFrame) :
  rows raw = rows raw' ->
  map remove_spaces (columns raw) = map remove_spaces (columns raw') ->
  strip_columns raw = strip_columns raw'.
Proof. unfold strip_columns. intros -> ->. reflexivity. Qed.

Lemma remove_spaces_idempotent (s : string) :
  remove_spaces (remove_spaces s) = remove_spaces s.
Proof.
  induction s as [|c s IH]; [reflexivity|]. cbn [remove_spaces].
  destruct (Ascii.eqb c " ") eqn:Hc; [exact IH|].
  cbn [remove_spaces]. now rewrite Hc, IH.
Qed.

Lemma transform_strip_columns (raw : DataFrame) (country_code : string) :
  transform (strip_columns raw) country_code = transform raw country_code.
Proof.
  unfold transform. cbv zeta.
  replace (strip_columns (strip_columns raw)) with (strip_columns raw);
    [reflexivity|].
  unfold strip_columns. cbn [columns rows]. f_equal.
  rewrite map_map. apply map_ext. intros s.
  now rewrite remove_spaces_idempotent.
Qed.

(** X1.  Spaces in the column labels do not matter: two tables with the
    same rows whose labels agree once their spaces are removed give the same
    returned table or exception and the same files; in particular a table
    and the same table with cleaned labels. *)
Theorem header_spaces_irrelevant (raw raw' : DataFrame) (country_code : string)
    (fs : gmap string CsvFile) :
  rows raw = rows raw' ->
  map remove_spaces (columns raw) = map remove_spaces (columns raw') ->
  clean_data raw country_code fs = clean_data raw' country_code fs /\
  clean_data (strip_columns raw) country_code fs = clean_data raw country_code fs.
Proof.
  intros Hrows Hcols. unfold clean_data. split.
  - replace (transform raw country_code) with (transform raw' country_code);
      [reflexivity|].
    unfold transform. now rewrite (strip_columns_ext _ _ Hrows Hcols).
  - now rewrite transform_strip_columns.
Qed.

Lemma header_spaces_irrelevant_witness :
  clean_data spaced_raw "PT" ∅ = clean_data sample_raw "PT" ∅ /\
  clean_data (strip_columns spaced_raw) "PT" ∅ = clean_data spaced_raw "PT" ∅.
Proof.
  apply (header_spaces_irrelevant spaced_raw sample_raw "PT" ∅); reflexivity.
Defined.

Lemma get_loc_None (label : string) (cols : list string) :
  ~ In label cols -> get_loc label cols = None.
Proof.
  induction cols as [|c cols IH]; cbn; [reflexivity|]. intros H.
  destruct (String.eqb c label) eqn:Hc.
  - apply String.eqb_eq in Hc. tauto.
  - rewrite IH; [reflexivity|tauto].
Qed.

(** X2.  Without a column whose label, spaces removed, is the composite
    key label, the run raises [KeyError] on line 32 whatever the rows and
    the region code, and writes no file. *)
Theorem missing_key_column (raw : DataFrame) (country_code : string)
    (fs : gmap string CsvFile) :
  ~ In key_label (map remove_spaces (columns raw)) ->
  clean_data raw country_code fs = (Raise KeyError, fs).
Proof.
  intros H. unfold clean_data. rewrite transform_no_key; [reflexivity|].
  now apply get_loc_None.
Qed.

Lemma missing_key_column_witness :
  clean_data keyless_raw "PT" ∅ = (Raise KeyError, ∅).
Proof.
  apply (missing_key_column keyless_raw "PT" ∅). cbn.
  intros [H|[H|[H|[]]]]; discriminate H.
Defined.

(** ** The files *)









(** ** Years *)

Lemma is_digit_not_space (c : ascii) : is_digit c = true -> is_space c = false.
Proof.
  unfold is_digit, is_space. intros H.
  apply andb_true_iff in H as [H1 H2]. apply N.leb_le in H1, H2.
  apply orb_false_iff. split; apply andb_false_iff.
  - right. apply N.leb_gt. lia.
  - right. apply N.leb_gt. lia.
Qed.

Lemma lstrip_head (c : ascii) (cs : list ascii) :
  is_space c = false -> lstrip (c :: cs) = c :: cs.
Proof. intros H. cbn. now rewrite H. Qed.

Lemma strip_digits (ds : list ascii) :
  forallb is_digit ds = true -> strip ds = ds.
Proof.
  intros H. unfold strip.
  assert (Hl : forall l, forallb is_digit l = true -> lstrip l = l).
  { intros [|c l] Hf; [reflexivity|]. cbn in Hf.
    apply andb_true_iff in Hf as [Hc _].
    apply lstrip_head. now apply is_digit_not_space. }
  rewrite (Hl ds H), Hl, rev_involutive; [reflexivity|].
  apply forallb_forall. intros c Hc. apply in_rev in Hc.
  rewrite forallb_forall in H. now apply H.
Qed.

Lemma int_digits_digits (ds : list ascii) (acc : N) (b : bool) :
  forallb is_digit ds = true -> ds <> [] ->
  int_digits ds acc b = Some (digits_value ds acc).
Proof.
  revert acc b. induction ds as [|c ds IH]; intros acc b H Hne;
    [contradiction|].
  cbn in H. apply andb_true_iff in H as [Hc Hds].
  cbn [int_digits digits_value]. rewrite Hc.
  destruct ds as [|d ds]; [reflexivity|].
  apply IH; [exact Hds|discriminate].
Qed.

(** The three cases of [int_of_str], by the first character. *)
Lemma int_of_str_cases (s : string) :
  int_of_str s
  = match strip (list_ascii_of_string s) with
    | c :: cs =>
        if Ascii.eqb c "-"
        then option_map (fun n => (- Z.of_N n)%Z) (int_digits cs 0%N false)
        else if Ascii.eqb c "+"
             then option_map Z.of_N (int_digits cs 0%N false)
             else option_map Z.of_N (int_digits (c :: cs) 0%N false)
    | [] => option_map Z.of_N (int_digits [] 0%N false)
    end.
Proof.
  unfold int_of_str. destruct (strip (list_ascii_of_string s)) as [|c cs];
    [reflexivity|].
  destruct c as [[] [] [] [] [] [] [] []]; reflexivity.
Qed.

Lemma int_of_str_digits (ds : list ascii) :
  forallb is_digit ds = true -> ds <> [] ->
  int_of_str (string_of_list_ascii ds) = Some (Z.of_N (digits_value ds 0%N)).
Proof.
  intros H Hne. rewrite int_of_str_cases.
  rewrite list_ascii_of_string_of_list_ascii, (strip_digits _ H).
  destruct ds as [|c cs]; [contradiction|].
  assert (Hc : is_digit c = true) by (cbn in H; now apply andb_true_iff in H).
  replace (Ascii.eqb c "-") with false.
  2:{ symmetry. apply Ascii.eqb_neq. intros ->. discriminate Hc. }
  replace (Ascii.eqb c "+") with false.
  2:{ symmetry. apply Ascii.eqb_neq. intros ->. discriminate Hc. }
  now rewrite (int_digits_digits _ 0%N false H Hne).
Qed.

(** X5.  A year label that is the decimal numeral of a number below 2^63
    is converted by line 54 to that number. *)
Theorem year_round_trip (n : N) :
  (n < 2 ^ 63)%N ->
  astype_int (numeral n) = Ok (Z.of_N n).
Proof.
  intros Hn. unfold astype_int, numeral.
  destruct (integer_part_digits n) as (ds & -> & Hd & Hne & Hval).
  rewrite (int_of_str_digits _ Hd Hne), Hval.
  replace ((- 2 ^ 63 <=? Z.of_N n)%Z && (Z.of_N n <? 2 ^ 63)%Z) with true;
    [reflexivity|].
  symmetry. apply andb_true_iff. split.
  - apply Z.leb_le. lia.
  - apply Z.ltb_lt. change (2 ^ 63)%Z with (Z.of_N (2 ^ 63)%N). lia.
Qed.

Lemma year_round_trip_witness :
  astype_int (numeral 1990) = Ok (Z.of_N 1990).
Proof. apply (year_round_trip 1990). reflexivity. Defined.

(** X6.  Every year of the returned table is the integer read from the
    label of a year column of the input, and fits a signed 64-bit
    integer. *)
Theorem years_from_header (raw : DataFrame) (country_code : string)
    (fs fs' : gmap string CsvFile) (out : list CleanedRecord) (r : CleanedRecord) :
  clean_data raw country_code fs = (Ok out, fs') ->
  In r out ->
  (exists label, In label (year_labels raw) /\ int_of_str label = Some (year r)) /\
  (- 2 ^ 63 <= year r < 2 ^ 63)%Z.
Proof.
  intros H Hr. apply clean_data_Ok_inv in H as [H _].
  destruct (transform_row_origin _ _ _ _ H Hr)
    as (j & row & Hj & _ & _ & _ & _ & _ & _ & _ & Hy & _).
  unfold astype_int in Hy.
  destruct (int_of_str (nth j (year_labels raw) EmptyString)) as [z|] eqn:Hz;
    [|discriminate].
  destruct ((- 2 ^ 63 <=? z)%Z && (z <? 2 ^ 63)%Z) eqn:Hb; [|discriminate].
  injection Hy as <-. apply andb_true_iff in Hb as [H1 H2].
  apply Z.leb_le in H1. apply Z.ltb_lt in H2. split; [|lia].
  exists (nth j (year_labels raw) EmptyString). split; [|exact Hz].
  now apply nth_In.
Qed.

Lemma years_from_header_witness :
  (exists label, In label (year_labels sample_raw) /\
                 int_of_str label = Some 1990%Z) /\
  (- 2 ^ 63 <= 1990 < 2 ^ 63)%Z.
Proof.
  apply (years_from_header sample_raw "PT" ∅
           (<[output_file_path "PT" := to_csv sample_out]> ∅) sample_out
           (mkCleanedRecord (Some "YR") (Some "F") (Some "Y_LT1") (Some "PT")
                            1990 (Some (mkDecimal 812 1)))).
  - reflexivity.
  - now left.
Defined.







(** ** Values *)




















Lemma re_sub_negated_app (items : list class_item) (s t : string) :
  re_sub_negated items (s ++ t)
  = (re_sub_negated items s ++ re_sub_negated items t)%string.
Proof.
  induction s as [|c s IH]; [reflexivity|].
  change (String c s ++ t)%string with (String c (s ++ t)).
  cbn [re_sub_negated]. rewrite IH.
  now destruct (matches_negated items c).
Qed.

Lemma re_sub_all_deleted (s : string) :
  all_deleted s = true -> re_sub_negated value_pattern s = EmptyString.
Proof.
  induction s as [|c s IH]; [reflexivity|]. cbn [all_deleted re_sub_negated].
  intros H. apply andb_true_iff in H as [-> Hs]. auto.
Qed.

Lemma append_empty_r (s : string) : (s ++ "")%string = s.
Proof.
  induction s as [|c s IH]; [reflexivity|].
  change (String c (s ++ "") = String c s). now rewrite IH.
Qed.

(** X10.  Marks around a number are dropped without a trace: a cell read
    between any characters other than digits, points and carets, be they
    flags, spaces, a sign or a currency symbol, has the value it has without
    them.  A leading minus sign is such a mark: the sign of a number is
    lost. *)
Theorem marks_ignored (before s after : string) :
  all_deleted before = true ->
  all_deleted after = true ->
  clean_value (before ++ s ++ after) = clean_value s.
Proof.
  intros Hb Ha. unfold clean_value.
  rewrite !re_sub_negated_app, (re_sub_all_deleted _ Hb),
    (re_sub_all_deleted _ Ha).
  now rewrite append_empty_r.
Qed.

Lemma marks_ignored_witness :
  clean_value ("-" ++ "81.2" ++ " b") = clean_value "81.2".
Proof. apply (marks_ignored "-" "81.2" " b"); reflexivity. Defined.

(** ** Keys *)

Lemma split_nonempty (sep : ascii) (s : string) : split sep s <> [].
Proof.
  destruct s as [|c s]; cbn; [discriminate|].
  destruct (Ascii.eqb c sep); [discriminate|].
  destruct (split sep s); discriminate.
Qed.

(** Joining the parts with the separator gives the string back. *)
Lemma concat_split (sep : ascii) (s : string) :
  String.concat (String sep EmptyString) (split sep s) = s.
Proof.
  induction s as [|c s IH]; [reflexivity|]. cbn [split].
  pose proof (split_nonempty sep s) as Hne.
  destruct (split sep s) as [|p ps]; [contradiction|].
  destruct (Ascii.eqb c sep) eqn:Hc.
  - apply Ascii.eqb_eq in Hc. subst c.
    change (String.concat (String sep "") ("" :: p :: ps))
      with (String sep (String.concat (String sep "") (p :: ps))).
    now rewrite IH.
  - destruct ps as [|q ps].
    + cbn in *. now rewrite IH.
    + change (String.concat (String sep "") (String c p :: q :: ps))
        with (String c (String.concat (String sep "") (p :: q :: ps))).
      now rewrite IH.
Qed.

Lemma split_no_sep (sep : ascii) (s p : string) :
  In p (split sep s) -> has_char sep p = false.
Proof.
  revert p. induction s as [|c s IH]; intros p; cbn [split].
  - intros [<-|[]]. reflexivity.
  - pose proof (split_nonempty sep s) as Hne.
    destruct (Ascii.eqb c sep) eqn:Hc.
    + intros [<-|Hin]; [reflexivity|auto].
    + destruct (split sep s) as [|q qs]; [contradiction|].
      intros [<-|Hin].
      * cbn [has_char]. rewrite Hc. apply IH. now left.
      * apply IH. now right.
Qed.

(** X11.  The key can be read back from a returned row: its unit, sex,
    age and region, none of which holds a comma, joined by commas are the
    composite key of a row of the input. *)
Theorem key_round_trip (raw : DataFrame) (country_code : string)
    (fs fs' : gmap string CsvFile) (out : list CleanedRecord) (r : CleanedRecord) :
  clean_data raw country_code fs = (Ok out, fs') ->
  In r out ->
  exists row u s a,
    In row (rows raw) /\
    unit r = Some u /\ sex r = Some s /\ age r = Some a /\
    region r = Some country_code /\
    key_of raw row = (u ++ "," ++ s ++ "," ++ a ++ "," ++ country_code)%string /\
    has_char "," u = false /\ has_char "," s = false /\
    has_char "," a = false /\ has_char "," country_code = false.
Proof.
  intros H Hr. apply clean_data_Ok_inv in H as [H _].
  destruct (transform_row_origin _ _ _ _ H Hr)
    as (j & row & _ & Hrow & Hreg & _ & Hu & Hs & Ha & Hg & _).
  apply transform_Ok_inv in H as (_ & _ & Hw & _).
  pose proof (key_parts_le_widest _ _ Hrow) as Hle. rewrite Hw in Hle.
  destruct (four_parts _ _ Hreg Hle) as (u & s & a & Hps).
  assert (Hno : forall p, In p [u; s; a; country_code] -> has_char "," p = false).
  { intros p Hp. rewrite <- Hps in Hp. unfold key_parts in Hp.
    now apply split_no_sep in Hp. }
  exists row, u, s, a. rewrite Hps in *. cbn in Hu, Hs, Ha, Hg.
  repeat split; auto.
  - rewrite <- (concat_split "," (key_of raw row)).
    unfold key_parts in Hps. now rewrite Hps.
  - apply Hno. cbn. auto.
  - apply Hno. cbn. auto.
  - apply Hno. cbn. auto.
  - apply Hno. cbn. auto.
Qed.

Lemma key_round_trip_witness :
  exists row u s a,
    In row (rows sample_raw) /\
    Some "YR" = Some u /\ Some "F" = Some s /\ Some "Y_LT1" = Some a /\
    Some "PT" = Some "PT" /\
    key_of sample_raw row = (u ++ "," ++ s ++ "," ++ a ++ "," ++ "PT")%string /\
    has_char "," u = false /\ has_char "," s = false /\
    has_char "," a = false /\ has_char "," "PT" = false.
Proof.
  apply (key_round_trip sample_raw "PT" ∅
           (<[output_file_path "PT" := to_csv sample_out]> ∅) sample_out
           (mkCleanedRecord (Some "YR") (Some "F") (Some "Y_LT1") (Some "PT")
                            1990 (Some (mkDecimal 812 1)))).
  - reflexivity.
  - now left.
Defined.

(** ** Rows of other regions *)






(** ** The empty table *)

Lemma flat_map_nil {A B : Type} (f : A -> list B) (l : list A) :
  flat_map f l = [] <-> forall x, In x l -> f x = [].
Proof.
  induction l as [|x l IH]; cbn; [tauto|]. split.
  - intros H. apply app_eq_nil in H as [Hx Hl]. rewrite IH in Hl.
    intros y [<-|Hy]; auto.
  - intros H. rewrite (H x (or_introl eq_refl)). cbn. apply IH. auto.
Qed.

(** X13.  A run that returns gives the empty table exactly when every
    year cell of every row of the region is the sentinel; this is so in
    particular when no row is of the region. *)
Theorem empty_table (raw : DataFrame) (country_code : string)
    (fs fs' : gmap string CsvFile) (out : list CleanedRecord) :
  clean_data raw country_code fs = (Ok out, fs') ->
  out = [] <->
  (forall row j,
     In row (rows raw) -> derived_region raw row = Some country_code ->
     j < length (year_labels raw) ->
     nth j (year_cells raw row) EmptyString = missing_sentinel).
Proof.
  intros H. apply clean_data_Ok_inv in H as [H _].
  apply transform_rows in H.
  assert (Hout : out = [] <-> column_major raw country_code = []).
  { split; intros E; rewrite E in H; inversion H; reflexivity. }
  rewrite Hout. unfold column_major. rewrite flat_map_nil. split.
  - intros Hall row j Hrow Hreg Hj.
    assert (Hseq : In j (seq 0 (length (year_labels raw))))
      by (apply in_seq; lia).
    specialize (Hall j Hseq). rewrite flat_map_nil in Hall.
    assert (Hm : In row (matching_rows raw country_code))
      by (apply matching_rows_region; auto).
    specialize (Hall row Hm). unfold cell_rows in Hall.
    destruct (String.eqb _ missing_sentinel) eqn:E; [|discriminate].
    now apply String.eqb_eq.
  - intros Hall j Hj. apply in_seq in Hj. apply flat_map_nil.
    intros row Hrow. apply matching_rows_region in Hrow as [Hrow Hreg].
    unfold cell_rows. rewrite (Hall row j Hrow Hreg); [|lia].
    now rewrite String.eqb_refl.
Qed.

Lemma empty_table_witness :
  sample_out = [] <->
  (forall row j,
     In row (rows sample_raw) -> derived_region sample_raw row = Some "PT" ->
     j < length (year_labels sample_raw) ->
     nth j (year_cells sample_raw row) EmptyString = missing_sentinel).
Proof.
  apply (empty_table sample_raw "PT" ∅
           (<[output_file_path "PT" := to_csv sample_out]> ∅)).
  reflexivity.
Defined.
